(** * Reversion Hunter: a shallow embedding of the screening core

    The Python sources under [src/src] are embedded function by function.
    Python's [float] is IEEE-754 binary64, which is exactly Rocq's primitive
    [float]; every arithmetic step below is therefore the step the
    interpreter performs, and closed examples are settled by evaluation.

    Conventions:
    - a Python function that may raise returns a [result];
    - Python's [/] on floats raises [ZeroDivisionError] on a zero divisor
      ([py_div]), whereas arithmetic on numpy scalars follows IEEE-754 and
      yields an infinity or a NaN instead (plain [/]);
    - the builtins [min] and [max] are the comparison-driven selections of
      CPython ([py_min], [py_max]), which matters on NaN. *)

From Stdlib Require Import Floats ZArith List String Ascii Bool Lia.
Import ListNotations.

Set Warnings "-inexact-float".

Open Scope float_scope.

(** ** Python runtime conventions *)

Module Py.

(** The exceptions the embedded functions can meet. *)
Inductive exn : Type :=
| ZeroDivisionError
| OverflowError
| KeyError
| TypeError
| ValidationError.

Inductive result (A : Type) : Type :=
| Ok (a : A)
| Raise (e : exn).

Arguments Ok {A} a.
Arguments Raise {A} e.

Definition bind {A B : Type} (r : result A) (k : A -> result B) : result B :=
  match r with
  | Ok a => k a
  | Raise e => Raise e
  end.

(** [try: ... except Exception: handler] *)
Definition try_except {A : Type} (r : result A) (handler : A) : A :=
  match r with
  | Ok a => a
  | Raise _ => handler
  end.

(** [x / y] on Python floats. *)
Definition py_div (x y : float) : result float :=
  if y =? 0 then Raise ZeroDivisionError else Ok (x / y).

(** [x ** 2] on a Python float: the square, with [OverflowError] when a
    finite base overflows. *)
Definition py_pow2 (x : float) : result float :=
  if is_finite x && is_infinity (x * x) then Raise OverflowError
  else Ok (x * x).

(** [max(a, b)]: [b] replaces [a] only when [b > a]. *)
Definition py_max (a b : float) : float := if a <? b then b else a.

(** [min(a, b)]: [b] replaces [a] only when [b < a]. *)
Definition py_min (a b : float) : float := if b <? a then b else a.

(** Truthiness of an [Optional[float]]: [None] and zero are falsy, every
    other float (NaN included) is truthy. *)
Definition truthy (o : option float) : bool :=
  match o with
  | None => false
  | Some x => negb (x =? 0)
  end.

(** [o or d] for an [Optional[int]] field. *)
Definition int_or (o : option Z) (d : Z) : Z :=
  match o with
  | None => d
  | Some z => if Z.eqb z 0 then d else z
  end.

End Py.

Import Py.

Notation "x <- c1 ;; c2" := (bind c1 (fun x => c2))
  (at level 61, c1 at next level, right associativity).

(** ** calculations/expected_value.py *)

Module ExpectedValueCalculator.

(** The dictionary returned by the EV functions, one field per key. *)
Record EvMetrics : Type := {
  expected_value : float;
  ev_percent : float;
  win_amount : float;
  loss_amount : float;
  win_probability : float;
  loss_probability : float;
  profit_factor : float
}.

Definition calculate_credit_spread_ev
  (premium_collected max_loss probability_of_profit : float)
  : result EvMetrics :=
  let win_prob := probability_of_profit / 100 in
  let loss_prob := 1 - win_prob in
  let win_amount := premium_collected in
  let loss_amount := max_loss in
  let ev := (win_prob * win_amount) - (loss_prob * loss_amount) in
  pr <- (if 0 <? max_loss then
           let ev_percent := (ev / max_loss) * 100 in
           profit_factor <-
             (if 0 <? loss_prob
              then py_div (win_prob * win_amount) (loss_prob * loss_amount)
              else Ok infinity) ;;
           Ok (ev_percent, profit_factor)
         else Ok (0, 0)) ;;
  Ok {| expected_value := ev;
        ev_percent := fst pr;
        win_amount := win_amount;
        loss_amount := loss_amount;
        win_probability := win_prob;
        loss_probability := loss_prob;
        profit_factor := snd pr |}.

Definition kelly_criterion (win_probability win_amount loss_amount : float)
  : result float :=
  if loss_amount =? 0 then Ok 0
  else
    b <- py_div win_amount loss_amount ;;
    let p := win_probability in
    let q := 1 - p in
    kelly <- py_div (b * p - q) b ;;
    let fractional_kelly := py_max 0 (py_min (kelly * 0.25) 0.05) in
    Ok fractional_kelly.

Definition meets_ev_threshold
  (premium_collected max_loss probability_of_profit threshold : float)
  : result (bool * EvMetrics) :=
  ev_metrics <- calculate_credit_spread_ev premium_collected max_loss
                  probability_of_profit ;;
  let passes := (threshold * 100) <=? ev_percent ev_metrics in
  Ok (passes, ev_metrics).

End ExpectedValueCalculator.

(** ** calculations/greeks.py *)

Module GreeksCalculator.

(** [str.lower()] on ASCII text. *)
Definition ascii_lower (c : ascii) : ascii :=
  let n := N_of_ascii c in
  if (N.leb 65 n && N.leb n 90)%bool then ascii_of_N (n + 32) else c.

Fixpoint lower (s : string) : string :=
  match s with
  | EmptyString => EmptyString
  | String c s' => String (ascii_lower c) (lower s')
  end.

(** The dictionary of Greeks: each key holds a float or [None]. *)
Record Greeks : Type := {
  delta : option float;
  gamma : option float;
  theta : option float;
  vega : option float;
  rho : option float
}.

(** The dictionary of the [except] branch: "Greeks unavailable". *)
Definition unavailable : Greeks :=
  {| delta := None; gamma := None; theta := None; vega := None; rho := None |}.

Section BlackScholes.

(** numpy's and scipy's elementary functions.  They are total on floats:
    outside their domain they answer NaN or an infinity (with a warning),
    they do not raise.  [np.sqrt] is the IEEE square root [sqrt]. *)
Variable np_log : float -> float.
Variable np_exp : float -> float.
Variable norm_cdf : float -> float.
Variable norm_pdf : float -> float.

(** The body of the [try] block. *)
Definition calculate_all_greeks_body
  (spot_price strike_price time_to_expiration risk_free_rate
   implied_volatility : float) (option_type : string) : result Greeks :=
  if time_to_expiration <=? 0 then
    let delta :=
      if String.eqb (lower option_type) "call"
      then (if strike_price <? spot_price then 1 else 0)
      else (if spot_price <? strike_price then -1 else 0) in
    Ok {| delta := Some delta; gamma := Some 0; theta := Some 0;
          vega := Some 0; rho := Some 0 |}
  else
    ratio <- py_div spot_price strike_price ;;
    iv2 <- py_pow2 implied_volatility ;;
    let sqrt_t := sqrt time_to_expiration in
    let d1 := (np_log ratio + (risk_free_rate + 0.5 * iv2) * time_to_expiration)
              / (implied_volatility * sqrt_t) in
    let d2 := d1 - implied_volatility * sqrt_t in
    let disc := np_exp (- risk_free_rate * time_to_expiration) in
    let '(delta, theta, rho) :=
      if String.eqb (lower option_type) "call" then
        (norm_cdf d1,
         (- spot_price * norm_pdf d1 * implied_volatility / (2 * sqrt_t)
          - risk_free_rate * strike_price * disc * norm_cdf d2),
         strike_price * time_to_expiration * disc * norm_cdf d2 / 100)
      else
        (norm_cdf d1 - 1,
         (- spot_price * norm_pdf d1 * implied_volatility / (2 * sqrt_t)
          + risk_free_rate * strike_price * disc * norm_cdf (- d2)),
         - strike_price * time_to_expiration * disc * norm_cdf (- d2) / 100) in
    let gamma := norm_pdf d1 / (spot_price * implied_volatility * sqrt_t) in
    let vega := spot_price * norm_pdf d1 * sqrt_t / 100 in
    let theta := theta / 365 in
    Ok {| delta := Some delta; gamma := Some gamma; theta := Some theta;
          vega := Some vega; rho := Some rho |}.

Definition calculate_all_greeks
  (spot_price strike_price time_to_expiration risk_free_rate
   implied_volatility : float) (option_type : string) : Greeks :=
  try_except
    (calculate_all_greeks_body spot_price strike_price time_to_expiration
       risk_free_rate implied_volatility option_type)
    unavailable.

End BlackScholes.

End GreeksCalculator.

(** ** models/option.py *)

Module OptionModel.

Inductive OptionType : Type := CALL | PUT.

Inductive SpreadType : Type :=
| PUT_SPREAD | CALL_SPREAD | IRON_CONDOR | BUTTERFLY.

(** [OptionContract]; dates are day ordinals. *)
Record OptionContract : Type := {
  oc_symbol : string;
  strike : float;
  expiration : Z;
  option_type : OptionType;
  bid : option float;
  ask : option float;
  last : option float;
  mark : option float;
  volume : option Z;
  open_interest : option Z;
  oc_delta : option float;
  oc_gamma : option float;
  oc_theta : option float;
  oc_vega : option float;
  oc_rho : option float;
  implied_volatility : option float;
  iv_percentile : option float;
  contract_symbol : option string;
  days_to_expiration : option Z
}.

(** *** PutSpread *)

Record PutSpread : Type := {
  ps_symbol : string;
  ps_spread_type : SpreadType;
  short_put : OptionContract;
  long_put : OptionContract;
  ps_strike_width : float;
  net_premium_collected : float;
  ps_max_profit : float;
  ps_max_loss : float;
  ps_breakeven : float;
  ps_delta : option float;
  ps_theta : option float;
  ps_vega : option float;
  ps_gamma : option float;
  ps_probability_of_profit : option float;
  ps_expected_value : option float;
  ps_dte : Z
}.

(** The keyword arguments [data] of the constructor: a field is [None]
    when its key is not passed. *)
Record PutSpreadData : Type := {
  psd_symbol : option string;
  psd_spread_type : option SpreadType;
  psd_short_put : option OptionContract;
  psd_long_put : option OptionContract;
  psd_strike_width : option float;
  psd_net_premium_collected : option float;
  psd_max_profit : option float;
  psd_max_loss : option float;
  psd_breakeven : option float;
  psd_delta : option float;
  psd_theta : option float;
  psd_vega : option float;
  psd_gamma : option float;
  psd_probability_of_profit : option float;
  psd_expected_value : option float;
  psd_dte : option Z
}.

(** A field declared without a default ([Field(...)] or a bare annotation)
    must be passed. *)
Definition required {A : Type} (o : option A) : result A :=
  match o with
  | Some a => Ok a
  | None => Raise ValidationError
  end.

(** A numeric bound of a [Field] is checked on the passed value. *)
Definition constraint (b : bool) : result unit :=
  if b then Ok tt else Raise ValidationError.

(** The call of the base-class constructor on [data]: pydantic's
    validation of the declared fields, defaults filled in. *)
Definition PutSpread_validate (data : PutSpreadData) : result PutSpread :=
  symbol <- required (psd_symbol data) ;;
  short_put <- required (psd_short_put data) ;;
  long_put <- required (psd_long_put data) ;;
  strike_width <- required (psd_strike_width data) ;;
  _ <- constraint (0 <? strike_width) ;;
  net_premium_collected <- required (psd_net_premium_collected data) ;;
  max_profit <- required (psd_max_profit data) ;;
  max_loss <- required (psd_max_loss data) ;;
  breakeven <- required (psd_breakeven data) ;;
  _ <- constraint (match psd_probability_of_profit data with
                   | Some p => (0 <=? p) && (p <=? 100)
                   | None => true
                   end) ;;
  dte <- required (psd_dte data) ;;
  Ok {| ps_symbol := symbol;
        ps_spread_type := match psd_spread_type data with
                          | Some t => t
                          | None => PUT_SPREAD
                          end;
        short_put := short_put;
        long_put := long_put;
        ps_strike_width := strike_width;
        net_premium_collected := net_premium_collected;
        ps_max_profit := max_profit;
        ps_max_loss := max_loss;
        ps_breakeven := breakeven;
        ps_delta := psd_delta data;
        ps_theta := psd_theta data;
        ps_vega := psd_vega data;
        ps_gamma := psd_gamma data;
        ps_probability_of_profit := psd_probability_of_profit data;
        ps_expected_value := psd_expected_value data;
        ps_dte := dte |}.

(** [if a and b: target = -a + b], the target keeping its value otherwise. *)
Definition credit_net (short long target : option float) : option float :=
  match short, long with
  | Some s, Some l =>
      if truthy short && truthy long then Some (- s + l) else target
  | _, _ => target
  end.

Definition PutSpread_init (data : PutSpreadData) : result PutSpread :=
  self <- PutSpread_validate data ;;
  let strike_width := strike (short_put self) - strike (long_put self) in
  let max_profit := net_premium_collected self in
  let max_loss := strike_width - net_premium_collected self in
  let breakeven := strike (short_put self) - net_premium_collected self in
  let sp := short_put self in
  let lp := long_put self in
  Ok {| ps_symbol := ps_symbol self;
        ps_spread_type := ps_spread_type self;
        short_put := sp;
        long_put := lp;
        ps_strike_width := strike_width;
        net_premium_collected := net_premium_collected self;
        ps_max_profit := max_profit;
        ps_max_loss := max_loss;
        ps_breakeven := breakeven;
        ps_delta := credit_net (oc_delta sp) (oc_delta lp) (ps_delta self);
        ps_theta := credit_net (oc_theta sp) (oc_theta lp) (ps_theta self);
        ps_vega := credit_net (oc_vega sp) (oc_vega lp) (ps_vega self);
        ps_gamma := credit_net (oc_gamma sp) (oc_gamma lp) (ps_gamma self);
        ps_probability_of_profit :=
          match oc_delta sp with
          | Some d =>
              if truthy (oc_delta sp) then Some ((1 - abs d) * 100)
              else ps_probability_of_profit self
          | None => ps_probability_of_profit self
          end;
        ps_expected_value := ps_expected_value self;
        ps_dte := ps_dte self |}.

(** *** CallSpread *)

Record CallSpread : Type := {
  cs_symbol : string;
  cs_spread_type : SpreadType;
  long_call : OptionContract;
  short_call : OptionContract;
  cs_strike_width : float;
  net_debit_paid : float;
  cs_max_profit : float;
  cs_max_loss : float;
  cs_breakeven : float;
  cs_delta : option float;
  cs_theta : option float;
  cs_vega : option float;
  cs_gamma : option float;
  cs_probability_of_profit : option float;
  cs_expected_value : option float;
  cs_dte : Z
}.

Record CallSpreadData : Type := {
  csd_symbol : option string;
  csd_spread_type : option SpreadType;
  csd_long_call : option OptionContract;
  csd_short_call : option OptionContract;
  csd_strike_width : option float;
  csd_net_debit_paid : option float;
  csd_max_profit : option float;
  csd_max_loss : option float;
  csd_breakeven : option float;
  csd_delta : option float;
  csd_theta : option float;
  csd_vega : option float;
  csd_gamma : option float;
  csd_probability_of_profit : option float;
  csd_expected_value : option float;
  csd_dte : option Z
}.

Definition CallSpread_validate (data : CallSpreadData) : result CallSpread :=
  symbol <- required (csd_symbol data) ;;
  long_call <- required (csd_long_call data) ;;
  short_call <- required (csd_short_call data) ;;
  strike_width <- required (csd_strike_width data) ;;
  _ <- constraint (0 <? strike_width) ;;
  net_debit_paid <- required (csd_net_debit_paid data) ;;
  max_profit <- required (csd_max_profit data) ;;
  max_loss <- required (csd_max_loss data) ;;
  breakeven <- required (csd_breakeven data) ;;
  dte <- required (csd_dte data) ;;
  Ok {| cs_symbol := symbol;
        cs_spread_type := match csd_spread_type data with
                          | Some t => t
                          | None => CALL_SPREAD
                          end;
        long_call := long_call;
        short_call := short_call;
        cs_strike_width := strike_width;
        net_debit_paid := net_debit_paid;
        cs_max_profit := max_profit;
        cs_max_loss := max_loss;
        cs_breakeven := breakeven;
        cs_delta := csd_delta data;
        cs_theta := csd_theta data;
        cs_vega := csd_vega data;
        cs_gamma := csd_gamma data;
        cs_probability_of_profit := csd_probability_of_profit data;
        cs_expected_value := csd_expected_value data;
        cs_dte := dte |}.

(** [if a and b: target = a - b], the target keeping its value otherwise. *)
Definition debit_net (long short target : option float) : option float :=
  match long, short with
  | Some l, Some s =>
      if truthy long && truthy short then Some (l - s) else target
  | _, _ => target
  end.

Definition CallSpread_init (data : CallSpreadData) : result CallSpread :=
  self <- CallSpread_validate data ;;
  let strike_width := strike (short_call self) - strike (long_call self) in
  let max_profit := strike_width - net_debit_paid self in
  let max_loss := net_debit_paid self in
  let breakeven := strike (long_call self) + net_debit_paid self in
  let lc := long_call self in
  let sc := short_call self in
  Ok {| cs_symbol := cs_symbol self;
        cs_spread_type := cs_spread_type self;
        long_call := lc;
        short_call := sc;
        cs_strike_width := strike_width;
        net_debit_paid := net_debit_paid self;
        cs_max_profit := max_profit;
        cs_max_loss := max_loss;
        cs_breakeven := breakeven;
        cs_delta := debit_net (oc_delta lc) (oc_delta sc) (cs_delta self);
        cs_theta := debit_net (oc_theta lc) (oc_theta sc) (cs_theta self);
        cs_vega := debit_net (oc_vega lc) (oc_vega sc) (cs_vega self);
        cs_gamma := debit_net (oc_gamma lc) (oc_gamma sc) (cs_gamma self);
        cs_probability_of_profit :=
          match oc_delta lc with
          | Some d =>
              if truthy (oc_delta lc) then Some (d * 100)
              else cs_probability_of_profit self
          | None => cs_probability_of_profit self
          end;
        cs_expected_value := cs_expected_value self;
        cs_dte := cs_dte self |}.

End OptionModel.

(** ** scanner/layer3_greeks.py *)

Module GreeksScanner.

Import OptionModel.

Definition is_some {A : Type} (o : option A) : bool :=
  match o with Some _ => true | None => false end.

(** [a + b] on two [Optional[float]] values raises [TypeError] on [None]. *)
Definition add_opt (a b : option float) : result float :=
  match a, b with
  | Some x, Some y => Ok (x + y)
  | _, _ => Raise TypeError
  end.

(** The comprehension selecting the short puts. *)
Definition short_put_candidate (current_price : float) (c : OptionContract)
  : bool :=
  match oc_delta c with
  | Some d =>
      ((-0.20 <=? d) && (d <=? -0.15))
      && (strike c <? current_price)
      && is_some (bid c) && is_some (ask c)
  | None => false
  end.

(** The comprehension selecting the long puts below [short_put]. *)
Definition long_put_candidate (short_put c : OptionContract) : bool :=
  (strike c <? strike short_put)
  && ((5 <=? strike short_put - strike c)
      && (strike short_put - strike c <=? 10))
  && is_some (bid c) && is_some (ask c).

(** The keyword arguments the scanner passes to [PutSpread]. *)
Definition put_spread_data (symbol : string) (short_put long_put : OptionContract)
  (net_premium : float) : PutSpreadData :=
  {| psd_symbol := Some symbol;
     psd_spread_type := None;
     psd_short_put := Some short_put;
     psd_long_put := Some long_put;
     psd_strike_width := None;
     psd_net_premium_collected := Some net_premium;
     psd_max_profit := None;
     psd_max_loss := None;
     psd_breakeven := None;
     psd_delta := None;
     psd_theta := None;
     psd_vega := None;
     psd_gamma := None;
     psd_probability_of_profit := None;
     psd_expected_value := None;
     psd_dte := Some (int_or (days_to_expiration short_put) 0) |}.

(** The body of the [try] block of the inner loop up to the constructor
    call: [None] stands for [continue], [Some data] for the keyword
    arguments the constructor is called with. *)
Definition put_spread_request (symbol : string)
  (short_put long_put : OptionContract) : result (option PutSpreadData) :=
  s <- add_opt (bid short_put) (ask short_put) ;;
  let short_premium := s / 2 in
  l <- add_opt (bid long_put) (ask long_put) ;;
  let long_premium := l / 2 in
  let net_premium := short_premium - long_premium in
  if net_premium <=? 0 then Ok None
  else Ok (Some (put_spread_data symbol short_put long_put net_premium)).

(** The whole [try] block: [Some spread] stands for
    [spreads.append(spread)]. *)
Definition put_spread_attempt (symbol : string)
  (short_put long_put : OptionContract) : result (option PutSpread) :=
  request <- put_spread_request symbol short_put long_put ;;
  match request with
  | None => Ok None
  | Some data => spread <- PutSpread_init data ;; Ok (Some spread)
  end.

Definition _build_put_spreads (put_contracts : list OptionContract)
  (current_price : float) (symbol : string) : list PutSpread :=
  let short_put_candidates :=
    filter (short_put_candidate current_price) put_contracts in
  flat_map
    (fun short_put =>
       let long_put_candidates :=
         filter (long_put_candidate short_put) put_contracts in
       flat_map
         (fun long_put =>
            match try_except (put_spread_attempt symbol short_put long_put)
                    None with
            | Some spread => [spread]
            | None => []
            end)
         long_put_candidates)
    short_put_candidates.

(** The comprehension selecting the long calls. *)
Definition long_call_candidate (current_price : float) (c : OptionContract)
  : bool :=
  match oc_delta c with
  | Some d =>
      ((0.60 <=? d) && (d <=? 0.70))
      && (strike c <=? current_price * 1.05)
      && is_some (bid c) && is_some (ask c)
  | None => false
  end.

(** The comprehension selecting the short calls above [long_call]. *)
Definition short_call_candidate (long_call c : OptionContract) : bool :=
  (strike long_call <? strike c)
  && ((5 <=? strike c - strike long_call)
      && (strike c - strike long_call <=? 10))
  && is_some (bid c) && is_some (ask c).

(** The keyword arguments the scanner passes to [CallSpread]. *)
Definition call_spread_data (symbol : string)
  (long_call short_call : OptionContract) (net_debit : float)
  : CallSpreadData :=
  {| csd_symbol := Some symbol;
     csd_spread_type := None;
     csd_long_call := Some long_call;
     csd_short_call := Some short_call;
     csd_strike_width := None;
     csd_net_debit_paid := Some net_debit;
     csd_max_profit := None;
     csd_max_loss := None;
     csd_breakeven := None;
     csd_delta := None;
     csd_theta := None;
     csd_vega := None;
     csd_gamma := None;
     csd_probability_of_profit := None;
     csd_expected_value := None;
     csd_dte := Some (int_or (days_to_expiration long_call) 0) |}.

Definition call_spread_request (symbol : string)
  (long_call short_call : OptionContract) : result (option CallSpreadData) :=
  l <- add_opt (bid long_call) (ask long_call) ;;
  let long_premium := l / 2 in
  s <- add_opt (bid short_call) (ask short_call) ;;
  let short_premium := s / 2 in
  let net_debit := long_premium - short_premium in
  if net_debit <=? 0 then Ok None
  else Ok (Some (call_spread_data symbol long_call short_call net_debit)).

Definition call_spread_attempt (symbol : string)
  (long_call short_call : OptionContract) : result (option CallSpread) :=
  request <- call_spread_request symbol long_call short_call ;;
  match request with
  | None => Ok None
  | Some data => spread <- CallSpread_init data ;; Ok (Some spread)
  end.

Definition _build_call_spreads (call_contracts : list OptionContract)
  (current_price : float) (symbol : string) : list CallSpread :=
  let long_call_candidates :=
    filter (long_call_candidate current_price) call_contracts in
  flat_map
    (fun long_call =>
       let short_call_candidates :=
         filter (short_call_candidate long_call) call_contracts in
       flat_map
         (fun short_call =>
            match try_except (call_spread_attempt symbol long_call short_call)
                    None with
            | Some spread => [spread]
            | None => []
            end)
         short_call_candidates)
    long_call_candidates.

End GreeksScanner.

(** ** models/stock.py *)

Module StockModel.

(** An f-string of a failure list: its template and the values
    interpolated into it, in order. *)
Inductive fmt_arg : Type :=
| FFloat (x : option float)
| FStr (s : option string)
| FInt (z : Z).

Definition message : Type := (string * list fmt_arg)%type.

Record StockFundamentals : Type := {
  symbol : string;
  company_name : option string;
  current_price : float;
  market_cap : float;
  pe_ratio : option float;
  roe : option float;
  debt_to_equity : option float;
  eps_current : option float;
  eps_q1_ago : option float;
  eps_q2_ago : option float;
  sector : option string;
  correlation_to_spy : option float;
  correlation_to_mag7 : option float
}.

Definition eps_growth_positive_2q (self : StockFundamentals) : bool :=
  match eps_current self, eps_q1_ago self, eps_q2_ago self with
  | Some cur, Some q1, Some q2 =>
      if truthy (eps_current self) && truthy (eps_q1_ago self)
         && truthy (eps_q2_ago self)
      then (q1 <? cur) && (q2 <? q1)
      else false
  | _, _, _ => false
  end.

Definition allowed_sectors : list string :=
  ["Financials"; "Healthcare"; "Consumer Staples"; "Utilities";
   "Industrials"]%string.

Definition sector_allowed (s : option string) : bool :=
  match s with
  | Some name => existsb (String.eqb name) allowed_sectors
  | None => false
  end.

(** [None or cond(x)] on an optional reading. *)
Definition none_or (o : option float) (cond : float -> bool) : bool :=
  match o with
  | None => true
  | Some x => cond x
  end.

Definition eps_failure : message :=
  ("EPS growth not positive for last 2 quarters"%string, []).

Definition passes_layer1_criteria (self : StockFundamentals)
  : bool * list message :=
  let failures : list message :=
    (if none_or (pe_ratio self) (fun pe => negb ((8 <=? pe) && (pe <=? 15)))
     then [("P/E {} not in range 8-15"%string, [FFloat (pe_ratio self)])]
     else [])
    ++ (if market_cap self <? 10000000000
        then [("Market cap ${:.1f}B < $10B"%string,
               [FFloat (Some (market_cap self / 1e9))])]
        else [])
    ++ (if none_or (correlation_to_mag7 self) (fun c => -0.3 <=? c)
        then [("Mag7 correlation {} not < -0.3"%string,
               [FFloat (correlation_to_mag7 self)])]
        else [])
    ++ (if negb (sector_allowed (sector self))
        then [("Sector '{}' not in allowed list"%string,
               [FStr (sector self)])]
        else [])
    ++ (if negb (eps_growth_positive_2q self) then [eps_failure] else [])
    ++ (if none_or (debt_to_equity self) (fun d => 1.5 <=? d)
        then [("Debt-to-Equity {} >= 1.5"%string,
               [FFloat (debt_to_equity self)])]
        else [])
    ++ (if none_or (roe self) (fun r => r <=? 12)
        then [("ROE {}% <= 12%"%string, [FFloat (roe self)])]
        else []) in
  (Nat.eqb (List.length failures) 0, failures).

End StockModel.

(** ** models/trade.py *)

Module TradeModel.

(** The fields of a [Trade] that the portfolio reads. *)
Record Trade : Type := {
  trade_id : string;
  trade_symbol : string;
  quantity : Z;
  entry_price : float;
  trade_capital_at_risk : float;
  position_size_percent : float
}.

(** [Portfolio]; instants of [datetime] are seconds. *)
Record Portfolio : Type := {
  total_capital : float;
  max_position_size_percent : float;
  max_positions : Z;
  max_sector_positions : Z;
  open_trades : list Trade;
  closed_trades : list Trade;
  capital_deployed : float;
  capital_at_risk : float;
  last_updated : Z
}.

(** [add_trade], as a transition of the portfolio: [now] is the reading of
    [datetime.utcnow()]; the result pairs the returned flag with the
    portfolio after the call. *)
Definition add_trade (now : Z) (self : Portfolio) (trade : Trade)
  : bool * Portfolio :=
  if Z.leb (max_positions self) (Z.of_nat (List.length (open_trades self)))
  then (false, self)
  else
    let max_risk :=
      total_capital self * (max_position_size_percent self / 100) in
    if max_risk <? trade_capital_at_risk trade then (false, self)
    else
      (true,
       {| total_capital := total_capital self;
          max_position_size_percent := max_position_size_percent self;
          max_positions := max_positions self;
          max_sector_positions := max_sector_positions self;
          open_trades := open_trades self ++ [trade];
          closed_trades := closed_trades self;
          capital_deployed := capital_deployed self;
          capital_at_risk :=
            capital_at_risk self + trade_capital_at_risk trade;
          last_updated := now |}).

End TradeModel.

(** ** calculations/spreads.py *)

Module SpreadCalculator.

(** A pandas [Series]: index labels with their values, in row order. *)
Definition Series : Type := list (Z * float).

(** A pandas [DataFrame] of float columns: the row index and the columns by
    name, each column holding one value per row. *)
Record DataFrame : Type := {
  df_index : list Z;
  df_columns : list (string * list float)
}.

(** [len(df)] *)
Definition df_len (df : DataFrame) : Z := Z.of_nat (List.length (df_index df)).

(** [df.empty]: an axis of length zero. *)
Definition df_empty (df : DataFrame) : bool :=
  match df_index df, df_columns df with
  | [], _ => true
  | _, [] => true
  | _, _ => false
  end.

(** [l.iloc[-n:]], and the empty slice when [n = 0]: the last [n] rows for a
    positive [n], all rows but the first [-n] for a negative one. *)
Definition tail_rows {A : Type} (n : Z) (l : list A) : list A :=
  if Z.eqb n 0 then []
  else if Z.ltb 0 n then skipn (List.length l - Z.to_nat n) l
  else skipn (Z.to_nat (- n)) l.

(** [df.tail(n)] *)
Definition df_tail (n : Z) (df : DataFrame) : DataFrame :=
  {| df_index := tail_rows n (df_index df);
     df_columns := map (fun c => (fst c, tail_rows n (snd c))) (df_columns df) |}.

Fixpoint lookup_column (name : string) (cols : list (string * list float))
  : option (list float) :=
  match cols with
  | [] => None
  | (k, v) :: rest => if String.eqb k name then Some v else lookup_column name rest
  end.

(** [df[name]]: [KeyError] on a missing column. *)
Definition df_getitem (df : DataFrame) (name : string) : result Series :=
  match lookup_column name (df_columns df) with
  | Some values => Ok (combine (df_index df) values)
  | None => Raise KeyError
  end.

(** Position of the first occurrence of a label. *)
Fixpoint first_position (labels : list Z) (key : Z) : option nat :=
  match labels with
  | [] => None
  | l :: rest =>
      if Z.eqb l key then Some 0%nat
      else option_map S (first_position rest key)
  end.

(** [index.get_loc(key)] followed by [+ 20] and the comparison with
    [len(spread)]: an integer position for a label that occurs once; for a
    repeated label pandas answers a slice or a boolean mask, on which the
    next two lines raise ([TypeError], or [ValueError] for the mask). *)
Definition get_loc (labels : list Z) (key : Z) : result nat :=
  match first_position labels key with
  | None => Raise KeyError
  | Some pos =>
      if Nat.eqb (count_occ Z.eq_dec labels key) 1 then Ok pos
      else Raise TypeError
  end.

(** A Python [int] as a float (exact below [2^53]). *)
Definition float_of_nat (n : nat) : float :=
  of_uint63 (Uint63.of_Z (Z.of_nat n)).

(** [a / b] on Python ints. *)
Definition py_int_truediv (a b : nat) : result float :=
  if Nat.eqb b 0 then Raise ZeroDivisionError
  else Ok (float_of_nat a / float_of_nat b).

Definition z_score (current_spread mean std : float) : float :=
  if 0 <? std then (current_spread - mean) / std else 0.

(** [spread[abs(spread - current_spread) < std * 0.5]] *)
Definition similar_extremes (spread : Series) (current_spread std : float)
  : Series :=
  filter (fun row => abs (snd row - current_spread) <? std * 0.5) spread.

(** One turn of the loop over [similar_extremes.index]. *)
Definition reversion_step (spread : Series) (current_spread mean : float)
  (reversions : nat) (idx : Z) : result nat :=
  loc <- get_loc (map fst spread) idx ;;
  let future_idx := (loc + 20)%nat in
  if Nat.ltb future_idx (List.length spread) then
    match nth_error spread future_idx with
    | Some (_, future_spread) =>
        if (mean <? current_spread) && (future_spread <? current_spread)
        then Ok (S reversions)
        else if (current_spread <? mean) && (current_spread <? future_spread)
        then Ok (S reversions)
        else Ok reversions
    | None => Raise KeyError
    end
  else Ok reversions.

Fixpoint count_reversions (spread : Series) (current_spread mean : float)
  (labels : list Z) (reversions : nat) : result nat :=
  match labels with
  | [] => Ok reversions
  | idx :: rest =>
      r <- reversion_step spread current_spread mean reversions idx ;;
      count_reversions spread current_spread mean rest r
  end.

Section Reductions.

(** pandas' [Series.mean()] and [Series.std()], as functions of the values
    of the series. *)
Variable series_mean : list float -> float.
Variable series_std : list float -> float.

(** The column the estimate is computed on. *)
Definition recent_spread (spread_history : DataFrame) (lookback_days : Z)
  : result Series :=
  df_getitem (df_tail lookback_days spread_history) "spread".

(** The probability before the final clamp. *)
Definition raw_probability (spread : Series) (current_spread : float)
  : result float :=
  let mean := series_mean (map snd spread) in
  let std := series_std (map snd spread) in
  let z := z_score current_spread mean std in
  let similar := similar_extremes spread current_spread std in
  if Nat.ltb (List.length similar) 5 then
    Ok (py_min (50 + abs z * 10) 95)
  else
    reversions <- count_reversions spread current_spread mean
                    (map fst similar) 0 ;;
    ratio <- py_int_truediv reversions (List.length similar) ;;
    Ok (ratio * 100).

(** The body of the [try] block. *)
Definition calculate_reversion_probability_body
  (spread_history : DataFrame) (current_spread : float) (lookback_days : Z)
  : result float :=
  spread <- recent_spread spread_history lookback_days ;;
  prob <- raw_probability spread current_spread ;;
  Ok (py_min (py_max prob 30) 95).

Definition calculate_reversion_probability
  (spread_history : DataFrame) (current_spread : float) (lookback_days : Z)
  : float :=
  if df_empty spread_history || Z.ltb (df_len spread_history) lookback_days
  then 50
  else
    try_except
      (calculate_reversion_probability_body spread_history current_spread
         lookback_days)
      50.

(** The z-score the estimate works with, [0] when it computes none. *)
Definition reversion_z_score
  (spread_history : DataFrame) (current_spread : float) (lookback_days : Z)
  : float :=
  match recent_spread spread_history lookback_days with
  | Ok spread =>
      z_score current_spread (series_mean (map snd spread))
        (series_std (map snd spread))
  | Raise _ => 0
  end.

End Reductions.

(** *** Reference reductions

    pandas' formulas with [skipna=True] and [ddof=1], summed left to
    right. *)

Definition not_nan (x : float) : bool := x =? x.

Definition fsum (l : list float) : float := fold_left add l 0.

Definition nan_mean (values : list float) : float :=
  let kept := filter not_nan values in
  fsum kept / float_of_nat (List.length kept).

Definition nan_std (values : list float) : float :=
  let kept := filter not_nan values in
  let avg := nan_mean values in
  match List.length kept with
  | O => nan
  | S d =>
      if Nat.eqb d 0 then nan
      else sqrt (fsum (map (fun x => (avg - x) * (avg - x)) kept)
                 / float_of_nat d)
  end.

End SpreadCalculator.

(** * Facts about binary64 arithmetic

    Derived from the bit-level specification of the primitive operations. *)

Module FloatFacts.

Definition sf_is_nan (s : spec_float) : bool :=
  match s with S754_nan => true | _ => false end.

Lemma SFcompare_refl s : sf_is_nan s = false -> SFcompare s s = Some Eq.
Proof.
  destruct s as [b|b| |b m e]; simpl; try discriminate; intros _.
  - reflexivity.
  - destruct b; reflexivity.
  - destruct b; rewrite Z.compare_refl, Pos.compare_cont_refl; reflexivity.
Qed.

Lemma is_nan_spec x : is_nan x = sf_is_nan (Prim2SF x).
Proof.
  unfold is_nan. rewrite FloatAxioms.eqb_spec. unfold SFeqb.
  destruct (sf_is_nan (Prim2SF x)) eqn:E.
  - destruct (Prim2SF x); try discriminate. reflexivity.
  - rewrite SFcompare_refl by assumption. reflexivity.
Qed.

Lemma SFcompare_antisym x y :
  SFcompare x y = option_map CompOpp (SFcompare y x).
Proof.
  destruct x as [bx|bx| |bx mx ex], y as [by_|by_| |by_ my ey]; simpl;
    try reflexivity;
    try (destruct bx; reflexivity);
    try (destruct by_; reflexivity);
    try (destruct bx, by_; reflexivity).
  destruct bx, by_; simpl; try reflexivity;
    rewrite (Z.compare_antisym ey ex);
    destruct (ey ?= ex)%Z; simpl; try reflexivity;
    rewrite (Pos.compare_cont_antisym my mx); simpl;
    try rewrite CompOpp_involutive; reflexivity.
Qed.

Lemma SFcompare_some x y :
  sf_is_nan x = false -> sf_is_nan y = false ->
  exists c, SFcompare x y = Some c.
Proof.
  destruct x, y; simpl; try discriminate; intros _ _; eauto.
Qed.

Lemma SFcompare_nan_l x y c : SFcompare x y = Some c -> sf_is_nan x = false.
Proof. destruct x, y; simpl; try discriminate; reflexivity. Qed.

Lemma SFcompare_nan_r x y c : SFcompare x y = Some c -> sf_is_nan y = false.
Proof. destruct x, y; simpl; try discriminate; reflexivity. Qed.

Lemma ltb_leb x y : (x <? y) = true -> (x <=? y) = true.
Proof.
  rewrite FloatAxioms.ltb_spec, FloatAxioms.leb_spec. unfold SFltb, SFleb.
  destruct (SFcompare _ _) as [[]|]; try discriminate; reflexivity.
Qed.

Lemma ltb_not_nan x y :
  (x <? y) = true -> is_nan x = false /\ is_nan y = false.
Proof.
  rewrite FloatAxioms.ltb_spec, !is_nan_spec. unfold SFltb.
  destruct (SFcompare _ _) as [c|] eqn:E; try discriminate.
  intros _. split; [eapply SFcompare_nan_l | eapply SFcompare_nan_r]; eassumption.
Qed.

Lemma leb_not_nan x y :
  (x <=? y) = true -> is_nan x = false /\ is_nan y = false.
Proof.
  rewrite FloatAxioms.leb_spec, !is_nan_spec. unfold SFleb.
  destruct (SFcompare _ _) as [c|] eqn:E; try discriminate.
  intros _. split; [eapply SFcompare_nan_l | eapply SFcompare_nan_r]; eassumption.
Qed.

Lemma ltb_false_leb x y :
  is_nan x = false -> is_nan y = false -> (y <? x) = false -> (x <=? y) = true.
Proof.
  rewrite !is_nan_spec, FloatAxioms.ltb_spec, FloatAxioms.leb_spec. unfold SFltb, SFleb.
  intros Hx Hy. rewrite (SFcompare_antisym (Prim2SF y) (Prim2SF x)).
  destruct (SFcompare_some _ _ Hx Hy) as [c ->]. destruct c; simpl; congruence.
Qed.

Lemma leb_refl x : is_nan x = false -> (x <=? x) = true.
Proof.
  rewrite is_nan_spec, FloatAxioms.leb_spec. unfold SFleb. intros H.
  rewrite SFcompare_refl by assumption. reflexivity.
Qed.


(** Rounding never produces a NaN from a non-negative mantissa. *)

Lemma iter_pos_invariant {A : Type} (P : A -> Prop) (f : A -> A) :
  (forall a, P a -> P (f a)) -> forall p a, P a -> P (SpecFloat.iter_pos f p a).
Proof.
  intros Hf. induction p as [p IH|p IH|]; simpl; intros a Ha; auto.
Qed.

Lemma shr_1_nonneg mrs : (0 <= shr_m mrs)%Z -> (0 <= shr_m (shr_1 mrs))%Z.
Proof.
  destruct mrs as [m r s]. simpl.
  destruct m as [|[p|p|]|[p|p|]]; simpl; lia.
Qed.

Lemma shr_nonneg mrs e n :
  (0 <= shr_m mrs)%Z -> (0 <= shr_m (fst (shr mrs e n)))%Z.
Proof.
  intros H. unfold shr. destruct n; simpl; auto.
  apply (iter_pos_invariant (fun r => (0 <= shr_m r)%Z)); auto using shr_1_nonneg.
Qed.

Lemma shr_record_of_loc_m m l : shr_m (shr_record_of_loc m l) = m.
Proof. destruct l as [|[]]; reflexivity. Qed.

Lemma shr_fexp_nonneg m e l :
  (0 <= m)%Z -> (0 <= shr_m (fst (shr_fexp prec emax m e l)))%Z.
Proof.
  intros H. unfold shr_fexp. apply shr_nonneg.
  rewrite shr_record_of_loc_m. assumption.
Qed.

Lemma round_nearest_even_nonneg m l :
  (0 <= m)%Z -> (0 <= round_nearest_even m l)%Z.
Proof.
  intros H. unfold round_nearest_even.
  destruct l as [|[]]; try destruct (Z.even m); lia.
Qed.

Lemma binary_round_aux_not_nan s m e l :
  (0 <= m)%Z -> sf_is_nan (binary_round_aux prec emax s m e l) = false.
Proof.
  intros H. unfold binary_round_aux.
  pose proof (shr_fexp_nonneg m e l H) as H1.
  destruct (shr_fexp prec emax m e l) as [mrs' e'] eqn:E1. simpl in H1.
  pose proof (shr_fexp_nonneg _ e' loc_Exact
                (round_nearest_even_nonneg _ (loc_of_shr_record mrs') H1)) as H2.
  destruct (shr_fexp prec emax _ e' loc_Exact) as [mrs'' e''] eqn:E2.
  simpl in H2.
  destruct (shr_m mrs'') as [|p|p]; try reflexivity.
  - destruct (_ <=? _)%Z; reflexivity.
  - lia.
Qed.

Lemma binary_round_not_nan s m e :
  sf_is_nan (binary_round prec emax s m e) = false.
Proof.
  unfold binary_round. destruct (shl_align _ _ _) as [mz ez].
  apply binary_round_aux_not_nan. lia.
Qed.

Lemma binary_normalize_not_nan m e sz :
  sf_is_nan (binary_normalize prec emax m e sz) = false.
Proof.
  destruct m; simpl; auto using binary_round_not_nan.
Qed.

Definition sf_is_finite_nz (s : spec_float) : bool :=
  match s with S754_finite _ _ _ => true | _ => false end.

Lemma SFmul_not_nan x y :
  sf_is_nan x = false -> sf_is_finite_nz y = true ->
  sf_is_nan (SF64mul x y) = false.
Proof.
  destruct x as [sx|sx| |sx mx ex], y as [sy|sy| |sy my ey];
    simpl; try discriminate; intros _ _; try reflexivity.
  apply binary_round_aux_not_nan. lia.
Qed.

Lemma SFadd_not_nan x y :
  sf_is_finite_nz x = true -> sf_is_nan y = false ->
  sf_is_nan (SF64add x y) = false.
Proof.
  destruct x as [sx|sx| |sx mx ex], y as [sy|sy| |sy my ey];
    simpl; try discriminate; intros _ _; try reflexivity.
  apply binary_normalize_not_nan.
Qed.

Lemma SFsub_not_nan x y :
  sf_is_nan x = false -> sf_is_finite_nz y = true ->
  sf_is_nan (SF64sub x y) = false.
Proof.
  destruct x as [sx|sx| |sx mx ex], y as [sy|sy| |sy my ey];
    simpl; try discriminate; intros _ _; try reflexivity.
  apply binary_normalize_not_nan.
Qed.

Lemma SFdiv_core_nonneg m1 e1 m2 e2 :
  (0 <= fst (fst (SFdiv_core_binary prec emax (Zpos m1) e1 (Zpos m2) e2)))%Z.
Proof.
  unfold SFdiv_core_binary.
  set (s := (e1 - e2 - _)%Z).
  set (m' := match s with Zpos _ => Z.shiftl (Zpos m1) s | Z0 => Zpos m1 | Zneg _ => 0%Z end).
  assert (Hm : (0 <= m')%Z).
  { subst m'. destruct s; try lia. apply Z.shiftl_nonneg. lia. }
  pose proof (Z_div_mod m' (Zpos m2) eq_refl) as Hd.
  destruct (Z.div_eucl m' (Zpos m2)) as [q r]. simpl.
  destruct Hd as [Hd Hr]. nia.
Qed.

Lemma SFdiv_not_nan x y :
  sf_is_nan x = false -> sf_is_finite_nz y = true ->
  sf_is_nan (SF64div x y) = false.
Proof.
  destruct x as [sx|sx| |sx mx ex], y as [sy|sy| |sy my ey];
    simpl; try discriminate; intros _ _; try reflexivity.
  unfold SF64div, SFdiv.
  pose proof (SFdiv_core_nonneg mx ex my ey) as H.
  destruct (SFdiv_core_binary _ _ _ _ _ _) as [[mz ez] lz]. simpl in H.
  apply binary_round_aux_not_nan. assumption.
Qed.


(** Integers below [2^53] convert exactly. *)

Lemma digits2_pos_bounds m :
  (2 ^ (Zpos (digits2_pos m) - 1) <= Zpos m < 2 ^ Zpos (digits2_pos m))%Z.
Proof.
  assert (step : forall d x, (0 < d)%Z ->
            (2 ^ (d - 1) <= x < 2 ^ d)%Z ->
            (2 ^ (Z.succ d - 1) <= 2 * x /\ 2 * x + 1 < 2 ^ Z.succ d)%Z).
  { intros d x Hd Hx. rewrite Z.pow_succ_r by lia.
    replace (Z.succ d - 1)%Z with (Z.succ (d - 1)) by lia.
    rewrite Z.pow_succ_r by lia. lia. }
  induction m as [m IH|m IH|]; simpl digits2_pos.
  - rewrite Pos2Z.inj_succ, (Pos2Z.inj_xI m).
    destruct (step _ _ (Pos2Z.is_pos _) IH) as [H1 H2]. clear IH step.
    revert H1 H2. generalize (Z.succ (Zpos (digits2_pos m))). intros d.
    generalize (2 ^ (d - 1))%Z (2 ^ d)%Z. intros; lia.
  - rewrite Pos2Z.inj_succ, (Pos2Z.inj_xO m).
    destruct (step _ _ (Pos2Z.is_pos _) IH) as [H1 H2]. clear IH step.
    revert H1 H2. generalize (Z.succ (Zpos (digits2_pos m))). intros d.
    generalize (2 ^ (d - 1))%Z (2 ^ d)%Z. intros; lia.
  - simpl. lia.
Qed.

Lemma digits2_pos_le m k :
  (0 <= k)%Z -> (Zpos m < 2 ^ k)%Z -> (Zpos (digits2_pos m) <= k)%Z.
Proof.
  intros Hk H. destruct (Z_le_gt_dec (Zpos (digits2_pos m)) k) as [|Hgt]; auto.
  exfalso. pose proof (digits2_pos_bounds m) as [Hlo _].
  assert (2 ^ k <= 2 ^ (Zpos (digits2_pos m) - 1))%Z by (apply Z.pow_le_mono_r; lia).
  lia.
Qed.

Lemma digits2_pos_iter_xO m k :
  digits2_pos (Pos.iter xO m k) = (digits2_pos m + k)%positive.
Proof.
  induction k as [|k IH] using Pos.peano_ind.
  - simpl. lia.
  - rewrite Pos.iter_succ. simpl. rewrite IH. lia.
Qed.

Lemma shr_fexp_canonical m e :
  canonical_mantissa prec emax m e = true ->
  shr_fexp prec emax (Zpos m) e loc_Exact
  = ({| shr_m := Zpos m; shr_r := false; shr_s := false |}, e).
Proof.
  unfold canonical_mantissa, shr_fexp. intros H. apply Z.eqb_eq in H.
  simpl Zdigits2. rewrite H, Z.sub_diag. reflexivity.
Qed.

Lemma binary_round_aux_canonical s m e :
  bounded prec emax m e = true ->
  binary_round_aux prec emax s (Zpos m) e loc_Exact = S754_finite s m e.
Proof.
  unfold bounded. intros H. apply andb_prop in H as [Hc He].
  unfold binary_round_aux. rewrite (shr_fexp_canonical m e Hc). simpl.
  rewrite (shr_fexp_canonical m e Hc). simpl.
  change (emax - prec)%Z with 971%Z in He. rewrite He. reflexivity.
Qed.

Lemma binary_round_small s m :
  (Zpos m < 2 ^ 53)%Z ->
  sf_is_finite_nz (binary_round prec emax s m 0) = true.
Proof.
  intros Hm. unfold binary_round.
  pose proof (digits2_pos_le m 53 ltac:(lia) Hm) as Hd.
  assert (Hf : fexp prec emax (Zpos (digits2_pos m) + 0) = (Zpos (digits2_pos m) - 53)%Z).
  { unfold fexp, emin, prec, emax. lia. }
  rewrite Hf. unfold shl_align.
  destruct (Zpos (digits2_pos m) - 53 - 0)%Z as [|k|k] eqn:Ek; try lia.
  - rewrite binary_round_aux_canonical; [reflexivity|].
    unfold bounded, canonical_mantissa, fexp, emin, prec, emax.
    apply andb_true_intro. split; [apply Z.eqb_eq|apply Z.leb_le]; lia.
  - rewrite binary_round_aux_canonical; [reflexivity|].
    unfold bounded, canonical_mantissa, fexp, emin, prec, emax.
    rewrite digits2_pos_iter_xO.
    apply andb_true_intro. split; [apply Z.eqb_eq|apply Z.leb_le]; lia.
Qed.

Lemma of_uint63_finite z :
  (1 <= z < 2 ^ 53)%Z ->
  sf_is_finite_nz (Prim2SF (of_uint63 (Uint63.of_Z z))) = true.
Proof.
  intros Hz. rewrite of_uint63_spec, Uint63.of_Z_spec.
  rewrite Z.mod_small by (unfold Uint63.wB; simpl; lia).
  destruct z as [|p|p]; try lia. simpl.
  apply binary_round_small. lia.
Qed.

Lemma of_uint63_not_nan i : sf_is_nan (Prim2SF (of_uint63 i)) = false.
Proof. rewrite of_uint63_spec. apply binary_normalize_not_nan. Qed.

End FloatFacts.

Import FloatFacts.

(** * Expected value and Kelly sizing *)

Section ExpectedValueFacts.

Import ExpectedValueCalculator.

(** The metrics of the worked example: premium 0.25, maximum loss 4.75,
    probability of profit 82. *)
Definition example_metrics : EvMetrics :=
  {| expected_value := 82 / 100 * 0.25 - (1 - 82 / 100) * 4.75;
     ev_percent := (82 / 100 * 0.25 - (1 - 82 / 100) * 4.75) / 4.75 * 100;
     win_amount := 0.25;
     loss_amount := 4.75;
     win_probability := 82 / 100;
     loss_probability := 1 - 82 / 100;
     profit_factor := (82 / 100 * 0.25) / ((1 - 82 / 100) * 4.75) |}.

(** [a] and [b] differ by less than [1e-9]. *)
Definition close_to (a b : float) : bool := abs (a - b) <? 1e-9.

Lemma meets_ev_threshold_ok premium max_loss pop threshold m :
  calculate_credit_spread_ev premium max_loss pop = Ok m ->
  meets_ev_threshold premium max_loss pop threshold
  = Ok ((threshold * 100) <=? ev_percent m, m).
Proof.
  intros H. unfold meets_ev_threshold. rewrite H. reflexivity.
Qed.

(** C1: on premium 0.25, maximum loss 4.75 and probability of profit 82 the
    expected value is [0.82*0.25 - 0.18*4.75 = -0.65] up to rounding and
    the 20% threshold rejects the spread; every input whose EV percentage
    is at least 20 is accepted by the 20% threshold. *)
Theorem credit_spread_ev_example_and_threshold :
  (calculate_credit_spread_ev 0.25 4.75 82 = Ok example_metrics
   /\ close_to (expected_value example_metrics) (0.82 * 0.25 - 0.18 * 4.75) = true
   /\ close_to (expected_value example_metrics) (-0.65) = true
   /\ meets_ev_threshold 0.25 4.75 82 0.20 = Ok (false, example_metrics))
  /\ (forall premium max_loss pop m,
        calculate_credit_spread_ev premium max_loss pop = Ok m ->
        (20 <=? ev_percent m) = true ->
        meets_ev_threshold premium max_loss pop 0.20 = Ok (true, m)).
Proof.
  split.
  - repeat split; vm_compute; reflexivity.
  - intros premium max_loss pop m Hm Hev.
    rewrite (meets_ev_threshold_ok _ _ _ _ m Hm).
    change (0.20 * 100) with 20. rewrite Hev. reflexivity.
Qed.

(** A spread with premium 2, maximum loss 3 and probability of profit 82
    has an EV percentage above 20 and passes. *)
Lemma credit_spread_ev_threshold_witness :
  exists m,
    calculate_credit_spread_ev 2 3 82 = Ok m
    /\ (20 <=? ev_percent m) = true
    /\ meets_ev_threshold 2 3 82 0.20 = Ok (true, m).
Proof.
  eexists. split; [vm_compute; reflexivity|].
  split; [vm_compute; reflexivity|].
  apply (proj2 credit_spread_ev_example_and_threshold);
    vm_compute; reflexivity.
Defined.

End ExpectedValueFacts.

Section KellyFacts.

Import ExpectedValueCalculator.

(** [max(0, min(k, 0.05))] lies in [[0, 0.05]] for every float [k], NaN
    included. *)
Lemma kelly_clamp_range k :
  (0 <=? py_max 0 (py_min k 0.05)) = true
  /\ (py_max 0 (py_min k 0.05) <=? 0.05) = true.
Proof.
  unfold py_min. destruct (0.05 <? k) eqn:Hcap.
  - vm_compute. auto.
  - unfold py_max. destruct (0 <? k) eqn:Hpos.
    + destruct (ltb_not_nan _ _ Hpos) as [_ Hk]. split.
      * apply ltb_leb. assumption.
      * apply ltb_false_leb; auto.
    + vm_compute. auto.
Qed.

(** Whenever [kelly_criterion] returns, the fraction lies in [[0, 0.05]]. *)
Lemma kelly_criterion_range p win loss f :
  kelly_criterion p win loss = Ok f ->
  (0 <=? f) = true /\ (f <=? 0.05) = true.
Proof.
  unfold kelly_criterion. destruct (loss =? 0).
  - intros H. injection H as <-. vm_compute. auto.
  - unfold py_div. destruct (loss =? 0); simpl; try discriminate.
    destruct (win / loss =? 0); simpl; try discriminate.
    intros H. injection H as <-. apply kelly_clamp_range.
Qed.

(** It returns exactly when the win/loss ratio [b] is not zero (or the
    loss amount is zero). *)
Lemma kelly_criterion_returns p win loss :
  (loss =? 0) = false -> (win / loss =? 0) = false ->
  exists f, kelly_criterion p win loss = Ok f.
Proof.
  intros Hl Hb. unfold kelly_criterion, py_div. rewrite Hl. simpl.
  rewrite Hb. simpl. eauto.
Qed.

Lemma kelly_criterion_raises p win loss :
  (loss =? 0) = false -> (win / loss =? 0) = true ->
  kelly_criterion p win loss = Raise ZeroDivisionError.
Proof.
  intros Hl Hb. unfold kelly_criterion, py_div. rewrite Hl. simpl.
  rewrite Hb. reflexivity.
Qed.

(** C2: the two worked examples of Kelly sizing hold (a positive fraction of
    at most 0.05 for [p = 0.82], exactly 0 for [p = 0.4]); with a win amount
    of zero and a non-zero loss amount, however, the win/loss ratio [b] is
    zero and the division by [b] raises [ZeroDivisionError] instead of
    returning a fraction in [[0, 0.05]]. *)
Theorem kelly_criterion_zero_win_amount :
  kelly_criterion 0.5 0 50 = Raise ZeroDivisionError
  /\ (exists f, kelly_criterion 0.82 12.5 50 = Ok f
                /\ (0 <? f) = true /\ (f <=? 0.05) = true)
  /\ kelly_criterion 0.4 12.5 50 = Ok 0.
Proof.
  split; [vm_compute; reflexivity|]. split.
  - eexists. split; [vm_compute; reflexivity|]. vm_compute. auto.
  - vm_compute. reflexivity.
Qed.

End KellyFacts.

(** * The Greeks engine *)

Section GreeksFacts.

Import GreeksCalculator.

Definition sf_finite (s : spec_float) : bool :=
  match s with
  | S754_zero _ | S754_finite _ _ _ => true
  | S754_infinity _ | S754_nan => false
  end.

Lemma is_finite_spec x : is_finite x = sf_finite (Prim2SF x).
Proof.
  unfold is_finite, is_infinity. rewrite is_nan_spec.
  rewrite FloatAxioms.eqb_spec, abs_spec.
  destruct (Prim2SF x) as [s|s| |s m e]; reflexivity.
Qed.

(** A division by zero never yields a finite number. *)
Lemma div_zero_not_finite x : is_finite (x / 0) = false.
Proof.
  rewrite is_finite_spec, div_spec.
  change (Prim2SF 0) with (S754_zero false).
  destruct (Prim2SF x) as [s|s| |s m e]; reflexivity.
Qed.

(** Every option type whose lower-case form is not ["call"] is priced as
    a put. *)
Definition is_call (option_type : string) : bool :=
  String.eqb (lower option_type) "call".

(** C3: at or past expiration ([time_to_expiration <= 0]) the Greeks are
    the intrinsic-value limit, whatever the rate, the volatility and the
    elementary functions: delta is 1 or 0 for a call (1 when spot > strike),
    -1 or 0 for a put (-1 when spot < strike), and gamma, theta, vega and
    rho are 0. *)
Theorem expired_option_intrinsic_greeks
  (np_log np_exp norm_cdf norm_pdf : float -> float)
  (spot strike t rate iv : float) (option_type : string) :
  (t <=? 0) = true ->
  calculate_all_greeks np_log np_exp norm_cdf norm_pdf
    spot strike t rate iv option_type
  = {| delta := Some (if is_call option_type
                      then (if strike <? spot then 1 else 0)
                      else (if spot <? strike then -1 else 0));
       gamma := Some 0; theta := Some 0; vega := Some 0; rho := Some 0 |}.
Proof.
  intros Ht. unfold calculate_all_greeks, calculate_all_greeks_body, is_call.
  rewrite Ht. reflexivity.
Qed.

(** An expired call in the money has delta 1, an expired put out of the
    money has delta 0. *)
Lemma expired_option_witness :
  (0 <=? 0) = true
  /\ delta (calculate_all_greeks sqrt sqrt sqrt sqrt 105 100 0 0.05 0.25 "Call")
     = Some 1
  /\ delta (calculate_all_greeks sqrt sqrt sqrt sqrt 105 100 0 0.05 0.25 "put")
     = Some 0.
Proof.
  split; [reflexivity|]. split.
  - rewrite (expired_option_intrinsic_greeks sqrt sqrt sqrt sqrt
               105 100 0 0.05 0.25 "Call" eq_refl).
    reflexivity.
  - rewrite (expired_option_intrinsic_greeks sqrt sqrt sqrt sqrt
               105 100 0 0.05 0.25 "put" eq_refl).
    reflexivity.
Defined.

(** C4: with an implied volatility of zero (spot 100, strike 100, one year,
    rate 0.05, a call) the [try] block raises nothing, so the function does
    not answer "Greeks unavailable": it returns five floats, and the gamma
    among them is a division by zero, an infinity or a NaN. *)
Theorem zero_volatility_greeks_not_unavailable
  (np_log np_exp norm_cdf norm_pdf : float -> float) :
  exists d g t v r,
    calculate_all_greeks np_log np_exp norm_cdf norm_pdf 100 100 1 0.05 0 "call"
    = {| delta := Some d; gamma := Some g; theta := Some t;
         vega := Some v; rho := Some r |}
    /\ is_finite g = false.
Proof.
  do 5 eexists. split.
  - cbv - [add sub mul div opp]. reflexivity.
  - apply div_zero_not_finite.
Qed.

End GreeksFacts.

(** * Spread objects *)

Section SpreadModelFacts.

Import OptionModel.

Lemma bind_ok {A B : Type} (r : result A) (k : A -> result B) (b : B) :
  bind r k = Ok b -> exists a, r = Ok a /\ k a = Ok b.
Proof.
  destruct r as [a|e]; simpl; intros H; [eauto | discriminate].
Qed.

(** What a successful construction keeps of the data it was given. *)
Lemma PutSpread_init_fields data s :
  PutSpread_init data = Ok s ->
  psd_short_put data = Some (short_put s)
  /\ psd_long_put data = Some (long_put s)
  /\ psd_net_premium_collected data = Some (net_premium_collected s).
Proof.
  unfold PutSpread_init. intros H.
  apply bind_ok in H as (self & Hv & H). injection H as <-. simpl.
  unfold PutSpread_validate in Hv.
  repeat (apply bind_ok in Hv as (? & ? & Hv)).
  injection Hv as <-. simpl.
  unfold required in *.
  repeat match goal with
         | H : match ?o with Some _ => _ | None => _ end = Ok _ |- _ =>
             destruct o; [injection H as -> | discriminate H]
         end.
  auto.
Qed.

Lemma CallSpread_init_fields data s :
  CallSpread_init data = Ok s ->
  csd_long_call data = Some (long_call s)
  /\ csd_short_call data = Some (short_call s)
  /\ csd_net_debit_paid data = Some (net_debit_paid s).
Proof.
  unfold CallSpread_init. intros H.
  apply bind_ok in H as (self & Hv & H). injection H as <-. simpl.
  unfold CallSpread_validate in Hv.
  repeat (apply bind_ok in Hv as (? & ? & Hv)).
  injection Hv as <-. simpl.
  unfold required in *.
  repeat match goal with
         | H : match ?o with Some _ => _ | None => _ end = Ok _ |- _ =>
             destruct o; [injection H as -> | discriminate H]
         end.
  auto.
Qed.

(** C5: after a successful construction the strike width is the difference
    of the leg strikes; a credit put spread has
    [max_loss = strike_width - net_premium_collected] and
    [max_profit = net_premium_collected]; a debit call spread has
    [max_profit = strike_width - net_debit_paid] and
    [max_loss = net_debit_paid]. *)
Theorem spread_construction_invariant :
  (forall data s,
     PutSpread_init data = Ok s ->
     ps_strike_width s = strike (short_put s) - strike (long_put s)
     /\ ps_max_loss s = ps_strike_width s - net_premium_collected s
     /\ ps_max_profit s = net_premium_collected s)
  /\ (forall data s,
        CallSpread_init data = Ok s ->
        cs_strike_width s = strike (short_call s) - strike (long_call s)
        /\ cs_max_profit s = cs_strike_width s - net_debit_paid s
        /\ cs_max_loss s = net_debit_paid s).
Proof.
  split; intros data s H.
  - unfold PutSpread_init in H.
    apply bind_ok in H as (self & _ & H). injection H as <-. simpl. auto.
  - unfold CallSpread_init in H.
    apply bind_ok in H as (self & _ & H). injection H as <-. simpl. auto.
Qed.

(** A 100/95 put pair quoted for the examples. *)
Definition example_contract (k : float) (ty : OptionType)
  (b a : float) (d : option float) : OptionContract :=
  {| oc_symbol := "JPM"; strike := k; expiration := 739000;
     option_type := ty; bid := Some b; ask := Some a; last := None;
     mark := None; volume := None; open_interest := None;
     oc_delta := d; oc_gamma := None; oc_theta := None;
     oc_vega := None; oc_rho := None; implied_volatility := Some 0.25;
     iv_percentile := None; contract_symbol := None;
     days_to_expiration := Some 35%Z |}.

Definition example_short_put : OptionContract :=
  example_contract 100 PUT 1.5 1.75 (Some (-0.1875)).

Definition example_long_put : OptionContract :=
  example_contract 95 PUT 0.5 0.75 (Some (-0.0625)).

(** Keyword arguments that name every required field; the values given
    for the derived fields are placeholders. *)
Definition example_put_data : PutSpreadData :=
  {| psd_symbol := Some "JPM"%string;
     psd_spread_type := None;
     psd_short_put := Some example_short_put;
     psd_long_put := Some example_long_put;
     psd_strike_width := Some 1;
     psd_net_premium_collected := Some 1;
     psd_max_profit := Some 0;
     psd_max_loss := Some 0;
     psd_breakeven := Some 0;
     psd_delta := None; psd_theta := None; psd_vega := None;
     psd_gamma := None; psd_probability_of_profit := None;
     psd_expected_value := None;
     psd_dte := Some 35%Z |}.

Definition example_long_call : OptionContract :=
  example_contract 100 CALL 4.5 4.75 (Some 0.625).

Definition example_short_call : OptionContract :=
  example_contract 105 CALL 2 2.25 (Some 0.375).

Definition example_call_data : CallSpreadData :=
  {| csd_symbol := Some "JPM"%string;
     csd_spread_type := None;
     csd_long_call := Some example_long_call;
     csd_short_call := Some example_short_call;
     csd_strike_width := Some 1;
     csd_net_debit_paid := Some 2.5;
     csd_max_profit := Some 0;
     csd_max_loss := Some 0;
     csd_breakeven := Some 0;
     csd_delta := None; csd_theta := None; csd_vega := None;
     csd_gamma := None; csd_probability_of_profit := None;
     csd_expected_value := None;
     csd_dte := Some 70%Z |}.

(** Both example spreads are constructed, with width 5; the put spread
    has maximum loss 4 and the call spread maximum profit 2.5. *)
Lemma spread_construction_witness :
  (exists s, PutSpread_init example_put_data = Ok s
             /\ ps_strike_width s = 5 /\ ps_max_loss s = 4
             /\ ps_max_loss s = ps_strike_width s - net_premium_collected s)
  /\ (exists s, CallSpread_init example_call_data = Ok s
                /\ cs_strike_width s = 5 /\ cs_max_profit s = 2.5
                /\ cs_max_profit s = cs_strike_width s - net_debit_paid s).
Proof.
  split.
  - eexists. split; [vm_compute; reflexivity|].
    split; [vm_compute; reflexivity|]. split; [vm_compute; reflexivity|].
    apply (proj1 spread_construction_invariant example_put_data).
    vm_compute. reflexivity.
  - eexists. split; [vm_compute; reflexivity|].
    split; [vm_compute; reflexivity|]. split; [vm_compute; reflexivity|].
    apply (proj2 spread_construction_invariant example_call_data).
    vm_compute. reflexivity.
Defined.

End SpreadModelFacts.

(** * Spread construction in the scanner *)

Section ScannerFacts.

Import OptionModel GreeksScanner.

(** The mid-price [(bid + ask) / 2] of a quoted contract. *)
Definition mid_price (c : OptionContract) : option float :=
  match bid c, ask c with
  | Some b, Some a => Some ((b + a) / 2)
  | _, _ => None
  end.

(** [net] is the mid-price of [sold] minus the mid-price of [bought], and it
    is not [<= 0]. *)
Definition priced_from_mids (sold bought : OptionContract) (net : float)
  : Prop :=
  exists ms mb,
    mid_price sold = Some ms /\ mid_price bought = Some mb
    /\ net = ms - mb /\ (net <=? 0) = false.

Lemma add_opt_ok a b x :
  add_opt a b = Ok x -> exists u v, a = Some u /\ b = Some v /\ x = u + v.
Proof.
  destruct a, b; simpl; intros H; try discriminate.
  injection H as <-. eauto.
Qed.

Lemma put_spread_request_priced symbol sp lp data :
  put_spread_request symbol sp lp = Ok (Some data) ->
  exists net,
    data = put_spread_data symbol sp lp net /\ priced_from_mids sp lp net.
Proof.
  unfold put_spread_request. intros H.
  apply bind_ok in H as (s & Hs & H). apply bind_ok in H as (l & Hl & H).
  apply add_opt_ok in Hs as (bs & as_ & Hbs & Has & ->).
  apply add_opt_ok in Hl as (bl & al & Hbl & Hal & ->).
  destruct (_ <=? 0) eqn:Hnet; [discriminate|].
  injection H as <-. eexists. split; [reflexivity|].
  exists ((bs + as_) / 2), ((bl + al) / 2). unfold mid_price.
  rewrite Hbs, Has, Hbl, Hal. auto.
Qed.

Lemma call_spread_request_priced symbol lc sc data :
  call_spread_request symbol lc sc = Ok (Some data) ->
  exists net,
    data = call_spread_data symbol lc sc net /\ priced_from_mids lc sc net.
Proof.
  unfold call_spread_request. intros H.
  apply bind_ok in H as (l & Hl & H). apply bind_ok in H as (s & Hs & H).
  apply add_opt_ok in Hs as (bs & as_ & Hbs & Has & ->).
  apply add_opt_ok in Hl as (bl & al & Hbl & Hal & ->).
  destruct (_ <=? 0) eqn:Hnet; [discriminate|].
  injection H as <-. eexists. split; [reflexivity|].
  exists ((bl + al) / 2), ((bs + as_) / 2). unfold mid_price.
  rewrite Hbs, Has, Hbl, Hal. auto.
Qed.

Lemma put_spread_attempt_priced symbol sp lp s :
  put_spread_attempt symbol sp lp = Ok (Some s) ->
  priced_from_mids (short_put s) (long_put s) (net_premium_collected s).
Proof.
  unfold put_spread_attempt. intros H.
  apply bind_ok in H as ([data|] & Hreq & H); [|discriminate].
  apply bind_ok in H as (s' & Hinit & H). injection H as ->.
  apply put_spread_request_priced in Hreq as (net & -> & Hnet).
  apply PutSpread_init_fields in Hinit as (Hs & Hl & Hn). simpl in *.
  injection Hs as <-. injection Hl as <-. injection Hn as <-. assumption.
Qed.

Lemma call_spread_attempt_priced symbol lc sc s :
  call_spread_attempt symbol lc sc = Ok (Some s) ->
  priced_from_mids (long_call s) (short_call s) (net_debit_paid s).
Proof.
  unfold call_spread_attempt. intros H.
  apply bind_ok in H as ([data|] & Hreq & H); [|discriminate].
  apply bind_ok in H as (s' & Hinit & H). injection H as ->.
  apply call_spread_request_priced in Hreq as (net & -> & Hnet).
  apply CallSpread_init_fields in Hinit as (Hl & Hs & Hn). simpl in *.
  injection Hs as <-. injection Hl as <-. injection Hn as <-. assumption.
Qed.

Lemma Forall_flat_map {A B : Type} (P : B -> Prop) (f : A -> list B) l :
  (forall a, In a l -> Forall P (f a)) -> Forall P (flat_map f l).
Proof.
  induction l as [|a l IH]; simpl; intros H; [constructor|].
  apply Forall_app. split; [apply H; auto | apply IH; auto].
Qed.

(** C6: the constructor of a put spread is only ever called with a net
    premium equal to the short leg's mid-price minus the long leg's, and
    never with one that is [<= 0]; every spread [_build_put_spreads]
    returns carries such a net premium.  Likewise for call spreads with
    the net debit, the long leg's mid-price minus the short leg's. *)
Theorem built_spreads_have_positive_net :
  (forall symbol sp lp data,
     put_spread_request symbol sp lp = Ok (Some data) ->
     exists net, psd_net_premium_collected data = Some net
                 /\ priced_from_mids sp lp net)
  /\ (forall contracts price symbol,
        Forall (fun s => priced_from_mids (short_put s) (long_put s)
                           (net_premium_collected s))
          (_build_put_spreads contracts price symbol))
  /\ (forall symbol lc sc data,
        call_spread_request symbol lc sc = Ok (Some data) ->
        exists net, csd_net_debit_paid data = Some net
                    /\ priced_from_mids lc sc net)
  /\ (forall contracts price symbol,
        Forall (fun s => priced_from_mids (long_call s) (short_call s)
                           (net_debit_paid s))
          (_build_call_spreads contracts price symbol)).
Proof.
  split; [|split; [|split]].
  - intros symbol sp lp data H.
    apply put_spread_request_priced in H as (net & -> & Hnet).
    exists net. split; [reflexivity | assumption].
  - intros contracts price symbol. unfold _build_put_spreads.
    apply Forall_flat_map. intros sp _. apply Forall_flat_map. intros lp _.
    destruct (put_spread_attempt symbol sp lp) as [[s|]|e] eqn:E; simpl;
      try constructor; try constructor.
    eapply put_spread_attempt_priced. eassumption.
  - intros symbol lc sc data H.
    apply call_spread_request_priced in H as (net & -> & Hnet).
    exists net. split; [reflexivity | assumption].
  - intros contracts price symbol. unfold _build_call_spreads.
    apply Forall_flat_map. intros lc _. apply Forall_flat_map. intros sc _.
    destruct (call_spread_attempt symbol lc sc) as [[s|]|e] eqn:E; simpl;
      try constructor; try constructor.
    eapply call_spread_attempt_priced. eassumption.
Qed.

(** On the example put pair the constructor is requested with the net
    premium [1.625 - 0.625 = 1]. *)
Lemma built_spreads_witness :
  put_spread_request "JPM" example_short_put example_long_put
  = Ok (Some (put_spread_data "JPM" example_short_put example_long_put 1))
  /\ exists net,
       psd_net_premium_collected
         (put_spread_data "JPM" example_short_put example_long_put 1)
       = Some net
       /\ priced_from_mids example_short_put example_long_put net.
Proof.
  split; [vm_compute; reflexivity|].
  apply (proj1 built_spreads_have_positive_net "JPM"%string
           example_short_put example_long_put).
  vm_compute. reflexivity.
Defined.

(** The scanner passes neither [strike_width] nor [max_profit], [max_loss]
    and [breakeven], which the models declare without a default: the
    construction is refused, the [except] clause skips the candidate, and
    the list of built spreads stays empty. *)
Lemma put_spread_data_refused symbol sp lp net :
  PutSpread_init (put_spread_data symbol sp lp net) = Raise ValidationError.
Proof. reflexivity. Qed.

Lemma call_spread_data_refused symbol lc sc net :
  CallSpread_init (call_spread_data symbol lc sc net) = Raise ValidationError.
Proof. reflexivity. Qed.

Lemma flat_map_nil {A B : Type} (f : A -> list B) l :
  (forall a, f a = []) -> flat_map f l = [].
Proof.
  intros H. induction l as [|a l IH]; simpl; [reflexivity|].
  rewrite H, IH. reflexivity.
Qed.

Lemma build_put_spreads_empty contracts price symbol :
  _build_put_spreads contracts price symbol = [].
Proof.
  unfold _build_put_spreads. apply flat_map_nil. intros sp.
  apply flat_map_nil. intros lp. unfold put_spread_attempt.
  destruct (put_spread_request symbol sp lp) as [[data|]|e] eqn:E;
    simpl; try reflexivity.
  apply put_spread_request_priced in E as (net & -> & _).
  rewrite put_spread_data_refused. reflexivity.
Qed.

Lemma build_call_spreads_empty contracts price symbol :
  _build_call_spreads contracts price symbol = [].
Proof.
  unfold _build_call_spreads. apply flat_map_nil. intros lc.
  apply flat_map_nil. intros sc. unfold call_spread_attempt.
  destruct (call_spread_request symbol lc sc) as [[data|]|e] eqn:E;
    simpl; try reflexivity.
  apply call_spread_request_priced in E as (net & -> & _).
  rewrite call_spread_data_refused. reflexivity.
Qed.

End ScannerFacts.

(** * The fundamentals filter *)

Section FundamentalsFacts.

Import StockModel.

(** The three EPS readings are present and strictly decreasing going back
    in time. *)
Definition eps_strictly_increasing (self : StockFundamentals) : bool :=
  match eps_current self, eps_q1_ago self, eps_q2_ago self with
  | Some cur, Some q1, Some q2 => (q1 <? cur) && (q2 <? q1)
  | _, _, _ => false
  end.

(** What the rule computes: the readings must moreover all be non-zero,
    because a zero reading is falsy like a missing one. *)
Lemma eps_growth_positive_2q_spec self :
  eps_growth_positive_2q self
  = eps_strictly_increasing self
    && (truthy (eps_current self) && truthy (eps_q1_ago self)
        && truthy (eps_q2_ago self)).
Proof.
  unfold eps_growth_positive_2q, eps_strictly_increasing.
  destruct (eps_current self) as [cur|], (eps_q1_ago self) as [q1|],
    (eps_q2_ago self) as [q2|]; simpl; try reflexivity;
    try (rewrite ?andb_false_r; reflexivity).
  destruct (negb (cur =? 0) && negb (q1 =? 0) && negb (q2 =? 0));
    rewrite ?andb_true_r, ?andb_false_r; reflexivity.
Qed.

(** The rule never holds without the three readings decreasing. *)
Lemma eps_growth_positive_2q_sound self :
  eps_growth_positive_2q self = true -> eps_strictly_increasing self = true.
Proof.
  rewrite eps_growth_positive_2q_spec. intros H.
  apply andb_prop in H as [H _]. assumption.
Qed.

Lemma in_nonempty {A : Type} (x : A) l :
  In x l -> Nat.eqb (List.length l) 0 = false.
Proof. destruct l; [contradiction | reflexivity]. Qed.

(** A failed EPS rule is recorded in the Layer-1 result. *)
Lemma layer1_records_eps_failure self :
  eps_growth_positive_2q self = false ->
  fst (passes_layer1_criteria self) = false
  /\ In eps_failure (snd (passes_layer1_criteria self)).
Proof.
  intros H.
  assert (Hin : In eps_failure (snd (passes_layer1_criteria self))).
  { unfold passes_layer1_criteria. rewrite H. cbn [negb snd].
    do 4 (apply in_or_app; right). apply in_or_app. left. left. reflexivity. }
  split; [|exact Hin].
  change (fst (passes_layer1_criteria self))
    with (Nat.eqb (List.length (snd (passes_layer1_criteria self))) 0).
  eapply in_nonempty. exact Hin.
Qed.

(** A company that passes every other Layer-1 rule, with EPS readings 2,
    1 and 0 from the latest quarter back. *)
Definition zero_eps_company : StockFundamentals :=
  {| symbol := "JPM";
     company_name := None;
     current_price := 145.5;
     market_cap := 420000000000;
     pe_ratio := Some 10.5;
     roe := Some 15.25;
     debt_to_equity := Some 1.25;
     eps_current := Some 2;
     eps_q1_ago := Some 1;
     eps_q2_ago := Some 0;
     sector := Some "Financials"%string;
     correlation_to_spy := None;
     correlation_to_mag7 := Some (-0.375) |}.

(** C8: the EPS readings 2 > 1 > 0 are strictly decreasing going back in
    time, yet the earnings-growth rule evaluates to false on them, because
    the zero reading is taken for a missing one; the Layer-1 result then
    fails with the EPS violation as its only entry. *)
Theorem eps_growth_rejects_zero_reading :
  eps_strictly_increasing zero_eps_company = true
  /\ eps_growth_positive_2q zero_eps_company = false
  /\ passes_layer1_criteria zero_eps_company = (false, [eps_failure]).
Proof.
  repeat split; vm_compute; reflexivity.
Qed.

End FundamentalsFacts.

(** * Portfolio bookkeeping *)

Section PortfolioFacts.

Import TradeModel.

(** The two refusals of [add_trade]: no free position, or a trade whose
    capital at risk exceeds the position-size limit. *)
Definition positions_full (self : Portfolio) : bool :=
  Z.leb (max_positions self) (Z.of_nat (List.length (open_trades self))).

Definition exceeds_position_size (self : Portfolio) (trade : Trade) : bool :=
  total_capital self * (max_position_size_percent self / 100)
  <? trade_capital_at_risk trade.

(** C10: [add_trade] is all or nothing.  When the open positions have
    reached [max_positions] or the trade's capital at risk exceeds
    [total_capital * (max_position_size_percent / 100)], it returns [False]
    and the portfolio is unchanged; otherwise it returns [True], the open
    trades are the former ones followed by that trade, the capital at risk
    has grown by the trade's capital at risk, and nothing else but the
    time stamp has changed. *)
Theorem add_trade_atomic (now : Z) (self : Portfolio) (trade : Trade) :
  (positions_full self || exceeds_position_size self trade = true ->
   add_trade now self trade = (false, self))
  /\ (positions_full self || exceeds_position_size self trade = false ->
      fst (add_trade now self trade) = true
      /\ open_trades (snd (add_trade now self trade))
         = open_trades self ++ [trade]
      /\ capital_at_risk (snd (add_trade now self trade))
         = capital_at_risk self + trade_capital_at_risk trade
      /\ closed_trades (snd (add_trade now self trade)) = closed_trades self
      /\ total_capital (snd (add_trade now self trade)) = total_capital self
      /\ max_positions (snd (add_trade now self trade)) = max_positions self
      /\ max_position_size_percent (snd (add_trade now self trade))
         = max_position_size_percent self).
Proof.
  unfold positions_full, exceeds_position_size, add_trade.
  destruct (Z.leb _ _); simpl.
  - split; [reflexivity | discriminate].
  - destruct (_ <? _); simpl.
    + split; [reflexivity | discriminate].
    + split; [discriminate | intros _; repeat split].
Qed.

Definition example_portfolio : Portfolio :=
  {| total_capital := 10000;
     max_position_size_percent := 2.5;
     max_positions := 1;
     max_sector_positions := 3;
     open_trades := [];
     closed_trades := [];
     capital_deployed := 0;
     capital_at_risk := 0;
     last_updated := 0 |}.

Definition example_trade (risk : float) : Trade :=
  {| trade_id := "T1"; trade_symbol := "JPM"; quantity := 1;
     entry_price := 1; trade_capital_at_risk := risk;
     position_size_percent := 2 |}.

(** With 10000 of capital and a 2.5% limit, a trade risking 200 is added
    and one risking 300 is refused; once the single position is taken, a
    further trade is refused too. *)
Lemma add_trade_witness :
  (fst (add_trade 1 example_portfolio (example_trade 200)) = true
   /\ open_trades (snd (add_trade 1 example_portfolio (example_trade 200)))
      = [example_trade 200]
   /\ capital_at_risk (snd (add_trade 1 example_portfolio (example_trade 200)))
      = 200)
  /\ add_trade 1 example_portfolio (example_trade 300)
     = (false, example_portfolio)
  /\ add_trade 2 (snd (add_trade 1 example_portfolio (example_trade 200)))
       (example_trade 100)
     = (false, snd (add_trade 1 example_portfolio (example_trade 200))).
Proof.
  split; [|split].
  - destruct (proj2 (add_trade_atomic 1 example_portfolio (example_trade 200))
                eq_refl) as (H1 & H2 & H3 & _).
    split; [exact H1|]. split; [exact H2|]. rewrite H3. reflexivity.
  - exact (proj1 (add_trade_atomic 1 example_portfolio (example_trade 300))
             eq_refl).
  - exact (proj1 (add_trade_atomic 2
                    (snd (add_trade 1 example_portfolio (example_trade 200)))
                    (example_trade 100)) eq_refl).
Defined.

End PortfolioFacts.

(** * The reversion-probability estimator *)

Section ReversionFacts.

Import SpreadCalculator.

Lemma abs_not_nan x : is_nan x = false -> is_nan (abs x) = false.
Proof.
  rewrite !is_nan_spec, abs_spec. destruct (Prim2SF x); auto.
Qed.

Lemma mul_not_nan x y :
  is_nan x = false -> sf_is_finite_nz (Prim2SF y) = true ->
  is_nan (x * y) = false.
Proof.
  rewrite !is_nan_spec, mul_spec. apply SFmul_not_nan.
Qed.

Lemma add_not_nan x y :
  sf_is_finite_nz (Prim2SF x) = true -> is_nan y = false ->
  is_nan (x + y) = false.
Proof.
  rewrite !is_nan_spec, add_spec. apply SFadd_not_nan.
Qed.

Lemma div_not_nan x y :
  is_nan x = false -> sf_is_finite_nz (Prim2SF y) = true ->
  is_nan (x / y) = false.
Proof.
  rewrite !is_nan_spec, div_spec. apply SFdiv_not_nan.
Qed.

(** The final clamp [min(max(prob, 30), 95)] maps every number into
    [[30, 95]], and a NaN to itself. *)
Lemma clamp_range prob :
  is_nan prob = false ->
  (30 <=? py_min (py_max prob 30) 95) = true
  /\ (py_min (py_max prob 30) 95 <=? 95) = true.
Proof.
  intros Hp. unfold py_max. destruct (prob <? 30) eqn:Hlow.
  - vm_compute. auto.
  - unfold py_min. destruct (95 <? prob) eqn:Hhigh.
    + vm_compute. auto.
    + split; apply ltb_false_leb; auto.
Qed.

Lemma clamp_nan prob :
  is_nan prob = true -> is_nan (py_min (py_max prob 30) 95) = true.
Proof.
  intros Hp. unfold py_max, py_min.
  destruct (prob <? 30) eqn:H1.
  { apply ltb_not_nan in H1 as [H1 _]. congruence. }
  destruct (95 <? prob) eqn:H2.
  { apply ltb_not_nan in H2 as [_ H2]. congruence. }
  assumption.
Qed.

(** The z-score heuristic [min(50 + abs(z) * 10, 95)] is a number whenever
    the z-score is. *)
Lemma heuristic_not_nan z :
  is_nan z = false -> is_nan (py_min (50 + abs z * 10) 95) = false.
Proof.
  intros Hz. unfold py_min. destruct (95 <? _); [reflexivity|].
  apply add_not_nan; [reflexivity|].
  apply mul_not_nan; [|reflexivity]. apply abs_not_nan. assumption.
Qed.

Lemma float_of_nat_not_nan n : is_nan (float_of_nat n) = false.
Proof. rewrite is_nan_spec. apply of_uint63_not_nan. Qed.

Lemma float_of_nat_finite n :
  (1 <= n)%nat -> (Z.of_nat n < 2 ^ 53)%Z ->
  sf_is_finite_nz (Prim2SF (float_of_nat n)) = true.
Proof.
  intros H1 H2. apply of_uint63_finite. lia.
Qed.

(** The empirical rate [(reversions / len(similar)) * 100] is a number. *)
Lemma empirical_not_nan reversions n ratio :
  (Z.of_nat n < 2 ^ 53)%Z ->
  py_int_truediv reversions n = Ok ratio ->
  is_nan (ratio * 100) = false.
Proof.
  unfold py_int_truediv. intros Hn. destruct (Nat.eqb n 0) eqn:E;
    [discriminate|].
  apply Nat.eqb_neq in E. intros H. injection H as <-.
  apply mul_not_nan; [|reflexivity].
  apply div_not_nan; [apply float_of_nat_not_nan|].
  apply float_of_nat_finite; lia.
Qed.

Lemma tail_rows_length {A : Type} n (l : list A) :
  (List.length (tail_rows n l) <= List.length l)%nat.
Proof.
  unfold tail_rows. destruct (Z.eqb n 0); [simpl; lia|].
  destruct (Z.ltb 0 n); rewrite length_skipn; lia.
Qed.

Lemma df_getitem_length df name spread :
  df_getitem df name = Ok spread ->
  (List.length spread <= List.length (df_index df))%nat.
Proof.
  unfold df_getitem. destruct (lookup_column _ _); [|discriminate].
  intros H. injection H as <-. rewrite length_combine. lia.
Qed.

Section WithReductions.

Variable series_mean : list float -> float.
Variable series_std : list float -> float.

Lemma recent_spread_length df lookback spread :
  recent_spread df lookback = Ok spread ->
  (List.length spread <= List.length (df_index df))%nat.
Proof.
  unfold recent_spread. intros H. apply df_getitem_length in H.
  simpl in H. pose proof (tail_rows_length lookback (df_index df)). lia.
Qed.

(** The probability before the clamp is a number whenever the z-score
    is. *)
Lemma raw_probability_not_nan spread current prob :
  (Z.of_nat (List.length spread) < 2 ^ 53)%Z ->
  is_nan (z_score current (series_mean (map snd spread))
            (series_std (map snd spread))) = false ->
  raw_probability series_mean series_std spread current = Ok prob ->
  is_nan prob = false.
Proof.
  intros Hlen Hz. unfold raw_probability.
  destruct (Nat.ltb _ 5).
  - intros H. injection H as <-. apply heuristic_not_nan. assumption.
  - intros H. apply bind_ok in H as (r & _ & H).
    apply bind_ok in H as (ratio & Hdiv & H). injection H as <-.
    eapply empirical_not_nan; [|exact Hdiv].
    pose proof (filter_length_le
                  (fun row => abs (snd row - current)
                              <? series_std (map snd spread) * 0.5) spread).
    unfold similar_extremes. lia.
Qed.

(** C9, as the code has it: for a history of fewer than [2^53] rows and a
    current spread whose z-score against the recent history is a number
    (not NaN), the reversion probability lies in [[30, 95]]. *)
Theorem reversion_probability_in_range
  (spread_history : DataFrame) (current_spread : float) (lookback_days : Z) :
  (Z.of_nat (List.length (df_index spread_history)) < 2 ^ 53)%Z ->
  is_nan (reversion_z_score series_mean series_std spread_history
            current_spread lookback_days) = false ->
  (30 <=? calculate_reversion_probability series_mean series_std
            spread_history current_spread lookback_days) = true
  /\ (calculate_reversion_probability series_mean series_std
        spread_history current_spread lookback_days <=? 95) = true.
Proof.
  intros Hlen Hz. unfold calculate_reversion_probability.
  destruct (df_empty spread_history || _); [vm_compute; auto|].
  unfold calculate_reversion_probability_body, reversion_z_score in *.
  destruct (recent_spread spread_history lookback_days) as [spread|e] eqn:Hs;
    simpl; [|vm_compute; auto].
  destruct (raw_probability series_mean series_std spread current_spread)
    as [prob|e] eqn:Hp; simpl; [|vm_compute; auto].
  apply clamp_range.
  eapply raw_probability_not_nan; [|exact Hz|exact Hp].
  apply recent_spread_length in Hs. lia.
Qed.

End WithReductions.

End ReversionFacts.

Section ReversionExamples.

Import SpreadCalculator.

(** Thirty rows labelled 0 to 29: the spread stays at 1 for ten
    observations and at 0 for the twenty that follow. *)
Definition falling_history : DataFrame :=
  {| df_index := map Z.of_nat (seq 0 30);
     df_columns := [("spread"%string, repeat 1 10 ++ repeat 0 20)] |}.

(** Two rows, spread 0 then 1. *)
Definition short_history : DataFrame :=
  {| df_index := [0%Z; 1%Z];
     df_columns := [("spread"%string, [0; 1])] |}.

(** With the current spread at 1, the ten analogs all reverted twenty
    observations later: the empirical rate of 100 is clamped to 95. *)
Lemma reversion_probability_witness :
  calculate_reversion_probability nan_mean nan_std falling_history 1 30 = 95
  /\ (30 <=? calculate_reversion_probability nan_mean nan_std
               falling_history 1 30) = true
  /\ (calculate_reversion_probability nan_mean nan_std
        falling_history 1 30 <=? 95) = true.
Proof.
  split; [vm_compute; reflexivity|].
  apply (reversion_probability_in_range nan_mean nan_std falling_history 1 30).
  - vm_compute. reflexivity.
  - vm_compute. reflexivity.
Defined.

(** A current spread that is NaN comes back as NaN: the z-score is NaN, no
    observation is similar, the heuristic [min(50 + abs(z) * 10, 95)] is
    NaN, and both comparisons of the clamp are false on it. *)
Lemma reversion_probability_nan_counterexample :
  is_nan (calculate_reversion_probability nan_mean nan_std
            short_history nan 2) = true
  /\ (30 <=? calculate_reversion_probability nan_mean nan_std
               short_history nan 2) = false
  /\ (calculate_reversion_probability nan_mean nan_std
        short_history nan 2 <=? 95) = false.
Proof.
  repeat split; vm_compute; reflexivity.
Qed.

End ReversionExamples.
